(** * binance_integration: the secret resolver and the kline fetcher

    A shallow embedding of [src/binance_integration.py].

    - A Python str is modelled by the string of its code points, which are
      all below 256 (ASCII and Latin-1 text).
    - Python exceptions are values of [exn]; a call that may raise returns a
      [Result].  Only instances of [Exception] are modelled (interrupts such
      as KeyboardInterrupt, which [except Exception] does not catch, are
      outside the model).
    - What the program does to the outside (printing, sleeping, the HTTP
      request) is recorded as a trace of [Event]s; [IO] is the writer/error
      monad that threads it.
    - What the outside answers (the clock, the HTTP endpoint) is read from a
      [World]; the secret store and the process environment from a [Host].
    - The third-party library calls whose results depend on floating point or
      on pandas' own parsing are the fields of the interface [Lib]; every
      theorem of the generic part holds for all implementations of it. *)

From Stdlib Require Import ZArith QArith List String Ascii Bool Lia DecimalString.
From stdpp Require Import base option list gmap strings.

Open Scope Z_scope.

(** ** Python values *)

Module Py.

(** An exception instance: its class name and [str(e)]. *)
Record exn : Type := Exn { exn_class : string; exn_msg : string }.

(** [str(e)], as the f-string [{e}] renders it. *)
Definition str_exn (e : exn) : string := exn_msg e.

(** The outcome of a call that may raise. *)
Definition Result (A : Type) : Type := (exn + A)%type.

Definition raise {A : Type} (cls msg : string) : Result A := inl (Exn cls msg).

Definition rbind {A B : Type} (r : Result A) (k : A -> Result B) : Result B :=
  match r with
  | inl e => inl e
  | inr a => k a
  end.

(** [str(n)] for an int. *)
Definition str_int (n : Z) : string := NilZero.string_of_int (Z.to_int n).

(** The values the request dictionary holds. *)
Inductive pyval : Type :=
| PStr (s : string)
| PInt (n : Z).

(** A dict with string keys, in insertion order. *)
Definition dict : Type := list (string * pyval).

Fixpoint dict_get (k : string) (d : dict) : option pyval :=
  match d with
  | [] => None
  | (k', v) :: d' => if String.eqb k' k then Some v else dict_get k d'
  end.

(** [d[k] = v]: replaces in place, or appends a new key. *)
Fixpoint dict_set (k : string) (v : pyval) (d : dict) : dict :=
  match d with
  | [] => [(k, v)]
  | (k', v') :: d' =>
      if String.eqb k' k then (k', v) :: d' else (k', v') :: dict_set k v d'
  end.

Definition dict_keys (d : dict) : list string := map fst d.

(** *** [repr], for the f-string [{params}] *)

Definition squote : ascii := "'"%char.
Definition dquote : ascii := ascii_of_nat 34.
Definition backslash : ascii := ascii_of_nat 92.

Fixpoint has_char (c : ascii) (s : string) : bool :=
  match s with
  | EmptyString => false
  | String c' s' => Ascii.eqb c c' || has_char c s'
  end.

Definition hex_digit (n : nat) : ascii :=
  if (n <? 10)%nat then ascii_of_nat (48 + n) else ascii_of_nat (87 + n).

(** Whether [repr] keeps the code point [n] as it is: what
    [str.isprintable] says below 256.  The controls (0-31, 127-159), the
    no-break space (160) and the soft hyphen (173) are not printable. *)
Definition printable (n : nat) : bool :=
  negb ((n <? 32)%nat || ((127 <=? n)%nat && (n <=? 160)%nat) || (n =? 173)%nat).

(** One character of a str inside quotes [q]: backslash and the quote are
    escaped, tab, line feed and carriage return have their letters, the
    other code points that are not printable are written in hexadecimal. *)
Definition repr_char (q c : ascii) : string :=
  let n := nat_of_ascii c in
  if Ascii.eqb c backslash then String backslash (String backslash EmptyString)
  else if Ascii.eqb c q then String backslash (String q EmptyString)
  else if (n =? 10)%nat then String backslash "n"
  else if (n =? 13)%nat then String backslash "r"
  else if (n =? 9)%nat then String backslash "t"
  else if negb (printable n) then
    String backslash
      (String "x" (String (hex_digit (n / 16)) (String (hex_digit (n mod 16)) EmptyString)))
  else String c EmptyString.

Fixpoint repr_chars (q : ascii) (s : string) : string :=
  match s with
  | EmptyString => EmptyString
  | String c s' => repr_char q c +:+ repr_chars q s'
  end.

(** [repr(s)]: single quotes, unless the text has a single quote and no
    double quote. *)
Definition repr_str (s : string) : string :=
  let q := if has_char squote s && negb (has_char dquote s) then dquote else squote in
  String q (repr_chars q s +:+ String q EmptyString).



Definition repr_val (v : pyval) : string :=
  match v with
  | PStr s => repr_str s
  | PInt n => str_int n
  end.

Definition repr_item (kv : string * pyval) : string :=
  repr_str (fst kv) +:+ ": " +:+ repr_val (snd kv).

Fixpoint join (sep : string) (l : list string) : string :=
  match l with
  | [] => EmptyString
  | [x] => x
  | x :: l' => x +:+ sep +:+ join sep l'
  end.

Definition repr_dict (d : dict) : string :=
  "{" +:+ join ", " (map repr_item d) +:+ "}".

End Py.
Import Py.

Notation "'let?' x := r 'in' k" := (rbind r (fun x => k))
  (at level 10, x name, r at level 100, k at level 200).

(** ** Effects *)

(** What a call does to the outside, in order. *)
Inductive Event : Type :=
| EPrint (line : string)                          (* print(line) *)
| ESleep (seconds : Z)                            (* time.sleep(seconds) *)
| EGet (url : string) (params : dict) (timeout : Z). (* requests.get(url, params=, timeout=) *)

(** A computation: its outcome and the events it performed.  When it raises,
    the events performed before the exception are kept. *)
Definition IO (A : Type) : Type := (Result A * list Event)%type.

Definition ret {A : Type} (a : A) : IO A := (inr a, []).

Definition lift {A : Type} (r : Result A) : IO A := (r, []).

Definition emit (ev : Event) : IO unit := (inr tt, [ev]).

Definition bind {A B : Type} (m : IO A) (k : A -> IO B) : IO B :=
  match m with
  | (inl e, t) => (inl e, t)
  | (inr a, t) => let (r, t') := k a in (r, t ++ t')
  end.

(** [try: body except Exception as e: handler e]. *)
Definition try_except {A : Type} (body : IO A) (handler : exn -> IO A) : IO A :=
  match body with
  | (inl e, t) => let (r, t') := handler e in (r, t ++ t')
  | (inr a, t) => (inr a, t)
  end.

Notation "'do' x <- m ; k" := (bind m (fun x => k))
  (at level 10, x name, m at level 100, k at level 200).

Definition print (line : string) : IO unit := emit (EPrint line).
Definition time_sleep (seconds : Z) : IO unit := emit (ESleep seconds).

Definition is_sleep (ev : Event) : bool :=
  match ev with ESleep _ => true | _ => false end.
Definition is_get (ev : Event) : bool :=
  match ev with EGet _ _ _ => true | _ => false end.

(** ** The secret resolver *)

(** A value of the secrets file (TOML), as Streamlit hands it out: a str, a
    scalar that is not iterable (an int, a float, a bool or a date-time,
    given by its type name and its text), an array or a table. *)
#[warnings="-register-all"]
Inductive toml : Type :=
| TStr (s : string)
| TScalar (type_name text : string)
| TArr (items : list toml)
| TTable (members : gmap string toml).

(** Where secrets are read from.  [st] is the streamlit module when its
    import succeeded, given by the outcome of loading its [st.secrets], which
    Streamlit does at the first access: the mapping of the secrets files, or
    the exception raised when there is no such file or it cannot be read.
    [environ] is [os.environ] once [load_dotenv()] has run. *)
Record Host : Type := {
  st : option (Result (gmap string toml));
  environ : gmap string string
}.

(** [k in m] on a mapping. *)
Definition contains {V : Type} (k : string) (m : gmap string V) : bool :=
  match m !! k with
  | Some _ => true
  | None => false
  end.

(** [m[k]] on a mapping: KeyError when the key is missing. *)
Definition getitem {V : Type} (k : string) (m : gmap string V) : Result V :=
  match m !! k with
  | Some v => inr v
  | None => raise "KeyError" (repr_str k)
  end.

(** [k in secrets] and [secrets[k]] on [st.secrets]: both load the secrets
    first, and a failure to load is raised as it is. *)
Definition secrets_contains (k : string) (secrets : Result (gmap string toml))
  : Result bool :=
  let? m := secrets in inr (contains k m).

Definition secrets_getitem (secrets : Result (gmap string toml)) (k : string)
  : Result toml :=
  let? m := secrets in getitem k m.

(** [k in s] on strs: [k] occurs in [s]. *)
Fixpoint occurs_in (k s : string) : bool :=
  String.prefix k s ||
  match s with
  | EmptyString => false
  | String _ s' => occurs_in k s'
  end.

(** [key in v] on a value of the secrets. *)
Definition value_contains (key : string) (v : toml) : Result bool :=
  match v with
  | TTable members => inr (contains key members)
  | TStr s => inr (occurs_in key s)
  | TArr items =>
      inr (existsb (fun x => match x with TStr s => String.eqb s key | _ => false end) items)
  | TScalar type_name _ =>
      raise "TypeError" ("argument of type '" +:+ type_name +:+ "' is not iterable")
  end.

(** [v[key]] on a value of the secrets, [key] being a str. *)
Definition value_getitem (v : toml) (key : string) : Result toml :=
  match v with
  | TTable members => getitem key members
  | TStr _ => raise "TypeError" "string indices must be integers"
  | TArr _ => raise "TypeError" "list indices must be integers or slices, not str"
  | TScalar type_name _ =>
      raise "TypeError" ("'" +:+ type_name +:+ "' object is not subscriptable")
  end.

(** [os.getenv(key)]. *)
Definition os_getenv (h : Host) (key : string) : option toml :=
  TStr <$> environ h !! key.

(** ["general" in secrets and key in secrets["general"]], left to right. *)
Definition in_general (secrets : Result (gmap string toml)) (key : string)
  : Result bool :=
  let? has := secrets_contains "general" secrets in
  if has : bool then
    let? general := secrets_getitem secrets "general" in
    value_contains key general
  else inr false.

Definition get_secret (h : Host) (key : string) : Result (option toml) :=
  match st h with
  | Some secrets =>
      let? found := in_general secrets key in
      if found : bool then
        let? general := secrets_getitem secrets "general" in
        let? v := value_getitem general key in
        inr (Some v)
      else inr (os_getenv h key)
  | None => inr (os_getenv h key)
  end.

(** The module's globals, set when the module is loaded. *)
Record Globals : Type := {
  BINANCE_API_KEY : option toml;
  BINANCE_API_SECRET : option toml
}.

Definition load_keys (h : Host) : Result Globals :=
  let? key := get_secret h "BINANCE_API_KEY" in
  let? secret := get_secret h "BINANCE_API_SECRET" in
  inr {| BINANCE_API_KEY := key; BINANCE_API_SECRET := secret |}.

(** ** JSON documents and table cells *)

(** What [response.json()] returns; [F] is the type of Python floats. *)
#[warnings="-register-all"]
Inductive JSON (F : Type) : Type :=
| JNull
| JBool (b : bool)
| JInt (n : Z)
| JFloat (x : F)
| JStr (s : string)
| JArr (items : list (JSON F))
| JObj (members : list (string * JSON F)).

Arguments JNull {F}.
Arguments JBool {F} b.
Arguments JInt {F} n.
Arguments JFloat {F} x.
Arguments JStr {F} s.
Arguments JArr {F} items.
Arguments JObj {F} members.

(** A cell of a DataFrame: an object as it came from the response, a
    datetime64 value, or a float64 value. *)
Inductive cell (T F : Type) : Type :=
| CRaw (j : JSON F)
| CTime (t : T)
| CFloat (x : F).

Arguments CRaw {T F} j.
Arguments CTime {T F} t.
Arguments CFloat {T F} x.

(** A DataFrame, column by column, in column order (the index is the default
    RangeIndex throughout and is not represented). *)
Definition DataFrame (T F : Type) : Type := list (string * list (cell T F)).

(** ** The library interface *)

(** The calls into Python's float and into pandas whose results the source
    does not determine.  Element conversions stand for the column
    conversions: a column converts when each of its elements does. *)
Class Lib : Type := {
  float : Type;
  (** [bool(x)] of a float. *)
  float_truth : float -> bool;
  (** What a caller passes as [start_time] / [end_time]. *)
  datetime : Type;
  Timestamp : Type;
  Timedelta : Type;
  (** [a <= b] on Timestamps. *)
  Timestamp_leb : Timestamp -> Timestamp -> bool;
  (** [pd.Timestamp(x)]. *)
  pd_Timestamp : datetime -> Result Timestamp;
  (** [int(ts.timestamp() * 1000)]. *)
  epoch_ms : Timestamp -> Z;
  (** [pd.Timedelta(days=d)]. *)
  pd_Timedelta : Z -> Result Timedelta;
  (** [ts - td]. *)
  Timestamp_sub : Timestamp -> Timedelta -> Result Timestamp;
  (** [pd.to_datetime(_, unit="ms")], on one element. *)
  to_datetime_ms : cell Timestamp float -> Result Timestamp;
  (** [_.astype(float)], on one element. *)
  astype_float : cell Timestamp float -> Result float;
  (** [pd.DataFrame(data, columns=cols)] when [data] is not a list of lists
      of [len(cols)] items each. *)
  DataFrame_irregular : JSON float -> list string -> Result (DataFrame Timestamp float)
}.

Section Fetcher.

Context {L : Lib}.

Abbreviation json_t := (JSON float).
Abbreviation cell_t := (cell Timestamp float).
Abbreviation frame := (DataFrame Timestamp float).

(** *** The outside *)

(** A [requests.Response], as far as the fetcher looks at it. *)
Record Response : Type := {
  status_code : Z;
  reason : string;
  url : string;
  (** the outcome of [response.json()] *)
  json : Result json_t
}.

Record World : Type := {
  (** [pd.Timestamp.utcnow()] at the time of the call *)
  utcnow : Timestamp;
  (** what [requests.get(url, params=params, timeout=timeout)] answers *)
  requests_get : string -> dict -> Z -> Result Response
}.

Definition get (w : World) (u : string) (params : dict) (timeout : Z) : IO Response :=
  (requests_get w u params timeout, [EGet u params timeout]).

(** [response.raise_for_status()]: requests raises HTTPError for the 4xx
    and 5xx status codes. *)
Definition raise_for_status (r : Response) : Result unit :=
  if (400 <=? status_code r) && (status_code r <? 500) then
    raise "HTTPError"
      (str_int (status_code r) +:+ " Client Error: " +:+ reason r +:+ " for url: " +:+ url r)
  else if (500 <=? status_code r) && (status_code r <? 600) then
    raise "HTTPError"
      (str_int (status_code r) +:+ " Server Error: " +:+ reason r +:+ " for url: " +:+ url r)
  else inr tt.

(** *** Python's view of a JSON document *)

(** [bool(data)]. *)
Definition truthy (data : json_t) : bool :=
  match data with
  | JNull => false
  | JBool b => b
  | JInt n => negb (n =? 0)
  | JFloat x => float_truth x
  | JStr s => negb (String.eqb s EmptyString)
  | JArr items => negb (Nat.eqb (length items) 0)
  | JObj members => negb (Nat.eqb (length members) 0)
  end.

Definition type_name (data : json_t) : string :=
  match data with
  | JNull => "NoneType"
  | JBool _ => "bool"
  | JInt _ => "int"
  | JFloat _ => "float"
  | JStr _ => "str"
  | JArr _ => "list"
  | JObj _ => "dict"
  end.

(** [len(data)]. *)
Definition len (data : json_t) : Result nat :=
  match data with
  | JStr s => inr (String.length s)
  | JArr items => inr (length items)
  | JObj members => inr (length members)
  | _ => raise "TypeError" ("object of type '" +:+ type_name data +:+ "' has no len()")
  end.

(** [not data or len(data) == 0]. *)
Definition no_data (data : json_t) : Result bool :=
  if negb (truthy data) then inr true
  else let? n := len data in inr (Nat.eqb n 0).

(** *** DataFrames *)

(** [pd.DataFrame()]. *)
Definition df_empty : frame := [].

(** [len(df)]: the number of rows. *)
Definition df_len (df : frame) : nat :=
  match df with
  | [] => 0%nat
  | (_, col) :: _ => length col
  end.


(** [df[name]]. *)
Fixpoint df_getitem (name : string) (df : frame) : Result (list cell_t) :=
  match df with
  | [] => raise "KeyError" (repr_str name)
  | (n, col) :: df' => if String.eqb n name then inr col else df_getitem name df'
  end.

(** [df[name] = col]. *)
Fixpoint df_setitem (name : string) (col : list cell_t) (df : frame) : frame :=
  match df with
  | [] => [(name, col)]
  | (n, c) :: df' =>
      if String.eqb n name then (n, col) :: df' else (n, c) :: df_setitem name col df'
  end.

(** [df[names]]: the named columns, in the order asked. *)
Fixpoint df_select (names : list string) (df : frame) : Result frame :=
  match names with
  | [] => inr []
  | n :: names' =>
      let? col := df_getitem n df in
      let? rest := df_select names' df in
      inr ((n, col) :: rest)
  end.

(** [df[names] = sub], [sub] having the columns [names]. *)
Definition df_assign (sub : frame) (df : frame) : frame :=
  fold_left (fun acc nc => df_setitem (fst nc) (snd nc) acc) sub df.

(** The items of a row of the expected width. *)
Definition row_items (width : nat) (row : json_t) : option (list json_t) :=
  match row with
  | JArr items => if Nat.eqb (length items) width then Some items else None
  | _ => None
  end.

(** The rows of a list of lists that are all [width] long. *)
Definition regular_rows (width : nat) (data : json_t) : option (list (list json_t)) :=
  match data with
  | JArr rows => mapM (row_items width) rows
  | _ => None
  end.

(** Item [j] of every row. *)
Definition column (j : nat) (rows : list (list json_t)) : list cell_t :=
  map (fun r => CRaw (nth j r JNull)) rows.

(** [pd.DataFrame(data, columns=cols)]: column [j] holds item [j] of every
    row. *)
Definition pd_DataFrame (data : json_t) (cols : list string) : Result frame :=
  match regular_rows (length cols) data with
  | Some rows => inr (imap (fun j name => (name, column j rows)) cols)
  | None => DataFrame_irregular data cols
  end.

(** A conversion applied down a column; the first failure is raised. *)
Fixpoint convert {A B : Type} (f : A -> Result B) (col : list A) : Result (list B) :=
  match col with
  | [] => inr []
  | x :: col' =>
      let? y := f x in
      let? ys := convert f col' in
      inr (y :: ys)
  end.

(** [pd.to_datetime(col, unit="ms")]. *)
Definition pd_to_datetime (col : list cell_t) : Result (list cell_t) :=
  let? ts := convert to_datetime_ms col in inr (map CTime ts).

(** [sub.astype(float)], column after column. *)
Definition astype (sub : frame) : Result frame :=
  convert (fun nc : string * list cell_t =>
             let? xs := convert astype_float (snd nc) in
             inr (fst nc, map CFloat xs)) sub.

(** *** The fetcher *)

Definition base_url : string := "https://data-api.binance.vision/api/v3/klines".

Definition response_columns : list string :=
  [ "open_time"; "open"; "high"; "low"; "close"; "volume";
    "close_time"; "quote_asset_volume"; "num_trades";
    "taker_buy_base_asset_volume"; "taker_buy_quote_asset_volume"; "ignore" ].

Definition numeric_cols : list string := ["open"; "high"; "low"; "close"; "volume"].

Definition key_columns : list string :=
  ["open_time"; "open"; "high"; "low"; "close"; "volume"].

(** Lines 56-67: the request parameters.  [start_time] and [end_time] are
    [None] or a datetime, and a datetime is truthy. *)
Definition request_params (w : World) (symbol interval : string) (days : Z)
  (start_time end_time : option datetime) : Result dict :=
  let params := [("symbol", PStr symbol); ("interval", PStr interval); ("limit", PInt 1000)] in
  let? params :=
    match start_time with
    | Some t =>
        let? ts := pd_Timestamp t in
        inr (dict_set "startTime" (PInt (epoch_ms ts)) params)
    | None => inr params
    end in
  match end_time with
  | Some t =>
      let? ts := pd_Timestamp t in
      inr (dict_set "endTime" (PInt (epoch_ms ts)) params)
  | None =>
      match start_time with
      | None =>
          let? td := pd_Timedelta days in
          let? ts := Timestamp_sub (utcnow w) td in
          inr (dict_set "startTime" (PInt (epoch_ms ts)) params)
      | Some _ => inr params
      end
  end.

(** Lines 78-93: the response as a table of the key columns. *)
Definition to_frame (data : json_t) : Result frame :=
  let? df := pd_DataFrame data response_columns in
  let? col := df_getitem "open_time" df in
  let? col := pd_to_datetime col in
  let df := df_setitem "open_time" col df in
  let? sub := df_select numeric_cols df in
  let? sub := astype sub in
  let df := df_assign sub df in
  df_select key_columns df.

(** The three lines the fetcher prints. *)
Definition warn_line (symbol : string) (params : dict) : string :=
  "[WARN] No data returned for " +:+ symbol +:+ ". Params: " +:+ repr_dict params.

Definition ok_line (symbol : string) (rows : nat) : string :=
  "[OK] Data fetched for " +:+ symbol +:+ ": " +:+ str_int (Z.of_nat rows) +:+ " rows".

Definition error_line (symbol : string) (e : exn) : string :=
  "[ERROR] Public Binance API error for " +:+ symbol +:+ ": " +:+ str_exn e.

(** The body of the [try]. *)
Definition fetch_klines_try (w : World) (symbol interval : string) (days : Z)
  (start_time end_time : option datetime) : IO frame :=
  do params <- lift (request_params w symbol interval days start_time end_time);
  do response <- get w base_url params 10;
  do _ <- lift (raise_for_status response);
  do data <- lift (json response);
  do empty <- lift (no_data data);
  if empty : bool then
    do _ <- print (warn_line symbol params);
    ret df_empty
  else
    do df <- lift (to_frame data);
    do _ <- print (ok_line symbol (df_len df));
    ret df.

(** The [except Exception as e] clause. *)
Definition fetch_klines_except (symbol : string) (e : exn) : IO frame :=
  do _ <- print (error_line symbol e);
  do _ <- time_sleep 2;
  ret df_empty.

(** [fetch_klines]; [g] holds the module's globals. *)
Definition fetch_klines (g : Globals) (w : World) (symbol interval : string) (days : Z)
  (start_time end_time : option datetime) : IO frame :=
  try_except (fetch_klines_try w symbol interval days start_time end_time)
             (fetch_klines_except symbol).

(** *** The fetcher on a standard output that may refuse a line

    [print] raises when [sys.stdout] cannot take the line: a character that
    its encoding lacks, a closed pipe.  [out] says what the standard output
    does with a line.  The handler's [print] is outside the [try].
    [fetch_klines] above is the fetcher on a standard output that takes every
    line. *)

Definition print_on (out : string -> Result unit) (line : string) : IO unit :=
  match out line with
  | inl e => (inl e, [])
  | inr _ => (inr tt, [EPrint line])
  end.

Definition fetch_klines_try_on (out : string -> Result unit) (w : World)
  (symbol interval : string) (days : Z) (start_time end_time : option datetime)
  : IO frame :=
  do params <- lift (request_params w symbol interval days start_time end_time);
  do response <- get w base_url params 10;
  do _ <- lift (raise_for_status response);
  do data <- lift (json response);
  do empty <- lift (no_data data);
  if empty : bool then
    do _ <- print_on out (warn_line symbol params);
    ret df_empty
  else
    do df <- lift (to_frame data);
    do _ <- print_on out (ok_line symbol (df_len df));
    ret df.

Definition fetch_klines_except_on (out : string -> Result unit) (symbol : string)
  (e : exn) : IO frame :=
  do _ <- print_on out (error_line symbol e);
  do _ <- time_sleep 2;
  ret df_empty.

Definition fetch_klines_on (out : string -> Result unit) (g : Globals) (w : World)
  (symbol interval : string) (days : Z) (start_time end_time : option datetime)
  : IO frame :=
  try_except (fetch_klines_try_on out w symbol interval days start_time end_time)
             (fetch_klines_except_on out symbol).

End Fetcher.

(** ** The table the response stands for, row by row *)

Section Klines.

Context {L : Lib}.

(** A Kline row. *)
Record Kline : Type := {
  open_time : Timestamp;
  open : float;
  high : float;
  low : float;
  close : float;
  volume : float
}.

(** One response row as a Kline row: item 0 as a millisecond timestamp,
    items 1-4 and item 5 as floats, the six other items dropped. *)
Definition spec_kline_of_row (row : JSON float) : Result Kline :=
  match row_items 12 row with
  | Some items =>
      let? t := to_datetime_ms (CRaw (nth 0 items JNull)) in
      let? o := astype_float (CRaw (nth 1 items JNull)) in
      let? h := astype_float (CRaw (nth 2 items JNull)) in
      let? l := astype_float (CRaw (nth 3 items JNull)) in
      let? c := astype_float (CRaw (nth 4 items JNull)) in
      let? v := astype_float (CRaw (nth 5 items JNull)) in
      inr {| open_time := t; open := o; high := h; low := l; close := c; volume := v |}
  | None => raise "ValueError" "12 columns passed"
  end.

(** The table of a sequence of Kline rows. *)
Definition spec_table (ks : list Kline) : DataFrame Timestamp float :=
  [ ("open_time", map (fun k => CTime (open_time k)) ks);
    ("open", map (fun k => CFloat (open k)) ks);
    ("high", map (fun k => CFloat (high k)) ks);
    ("low", map (fun k => CFloat (low k)) ks);
    ("close", map (fun k => CFloat (close k)) ks);
    ("volume", map (fun k => CFloat (volume k)) ks) ].

(** The [open_time] column of a table, when it has one of datetime values. *)
Definition open_times (df : DataFrame Timestamp float) : list Timestamp :=
  match df_getitem "open_time" df with
  | inr col => omap (fun c => match c with CTime t => Some t | _ => None end) col
  | inl _ => []
  end.

(** Each value is at most the next. *)
Fixpoint ascending (ts : list Timestamp) : bool :=
  match ts with
  | [] => true
  | t :: ts' =>
      match ts' with
      | [] => true
      | t' :: _ => Timestamp_leb t t' && ascending ts'
      end
  end.

End Klines.

(** ** A reference implementation of the library interface

    Timestamps and Timedeltas are pandas' signed 64-bit nanosecond counts
    (the least 64-bit value is NaT and not a valid count), floats are exact
    rationals: arithmetic that Python rounds to binary64 is exact here, the
    conversion to epoch-milliseconds included.  The element conversions cover
    the JSON integers and the plain decimal strings the endpoint sends and
    raise on everything else (numerals with an exponent too); a document that
    is not a list of lists of twelve items is refused.  The instance serves
    the sample calls below, on inputs where it agrees with pandas. *)

Module Exact.

Definition ns_max : Z := 2 ^ 63 - 1.

Definition in_bounds (n : Z) : bool := (- ns_max <=? n) && (n <=? ns_max).

Definition bounded (cls : string) (n : Z) : Result Z :=
  if in_bounds n then inr n else raise cls ("Out of bounds nanosecond value " +:+ str_int n).

Definition ns_per_day : Z := 86400 * 1000000000.

Definition digit_of (c : ascii) : option Z :=
  let n := Z.of_nat (nat_of_ascii c) in
  if (48 <=? n) && (n <=? 57) then Some (n - 48) else None.

(** The digits after the point: numerator and denominator so far, and
    whether a digit has been read. *)
Fixpoint read_fraction (s : string) (num : Z) (den : positive) (seen : bool)
  : option (Z * positive) :=
  match s with
  | EmptyString => if seen then Some (num, den) else None
  | String c s' =>
      match digit_of c with
      | Some d => read_fraction s' (10 * num + d) (10 * den)%positive true
      | None => None
      end
  end.

Fixpoint read_digits (s : string) (num : Z) (seen : bool) : option (Z * positive) :=
  match s with
  | EmptyString => if seen then Some (num, 1%positive) else None
  | String c s' =>
      if Ascii.eqb c "."%char then read_fraction s' num 1%positive seen
      else match digit_of c with
           | Some d => read_digits s' (10 * num + d) true
           | None => None
           end
  end.

(** An unsigned or signed decimal numeral such as [42000.15], with a digit
    at least. *)
Definition read_decimal (s : string) : option Q :=
  match s with
  | EmptyString => None
  | String c s' =>
      if Ascii.eqb c "-"%char then
        (fun nd : Z * positive => Qmake (- fst nd) (snd nd)) <$> read_digits s' 0 false
      else (fun nd : Z * positive => Qmake (fst nd) (snd nd)) <$> read_digits s 0 false
  end.

Definition datetime_of_ms (c : cell Z Q) : Result Z :=
  match c with
  | CRaw (JInt n) => bounded "OutOfBoundsDatetime" (n * 1000000)
  | CTime t => inr t
  | _ => raise "ValueError" "unit='ms' not valid with non-numerical value"
  end.

Definition float_of (c : cell Z Q) : Result Q :=
  match c with
  | CRaw (JInt n) => inr (inject_Z n)
  | CRaw (JFloat x) => inr x
  | CRaw (JStr s) =>
      match read_decimal s with
      | Some x => inr x
      | None => raise "ValueError" ("could not convert string to float: " +:+ repr_str s)
      end
  | CFloat x => inr x
  | _ => raise "TypeError" "float() argument must be a string or a real number"
  end.

Definition lib : Lib := {|
  float := Q;
  float_truth := fun x => negb (Qeq_bool x 0);
  datetime := Z;
  Timestamp := Z;
  Timedelta := Z;
  Timestamp_leb := Z.leb;
  pd_Timestamp := bounded "OutOfBoundsDatetime";
  epoch_ms := fun ts => Z.quot ts 1000000;
  pd_Timedelta := fun days => bounded "OutOfBoundsTimedelta" (days * ns_per_day);
  Timestamp_sub := fun ts td => bounded "OutOfBoundsDatetime" (ts - td);
  to_datetime_ms := datetime_of_ms;
  astype_float := float_of;
  DataFrame_irregular := fun _ _ => raise "ValueError" "columns passed do not match the data"
|}.

(** *** Sample responses *)

(** The twelve items of a response row of the endpoint, prices as strings. *)
Definition items (t : Z) (o h l c v : string) : list (JSON Q) :=
  [ JInt t; JStr o; JStr h; JStr l; JStr c; JStr v;
    JInt (t + 3599999); JStr "0"; JInt 10; JStr "0"; JStr "0"; JStr "0" ].

Definition row (t : Z) (o h l c v : string) : JSON Q := JArr (items t o h l c v).

Definition answer (status : Z) (why : string) (body : Result (JSON Q)) : @Response lib :=
  @Build_Response lib status why base_url body.

(** 2023-11-14 22:13:20 UTC. *)
Definition now : Z := 1700000000 * 1000000000.

(** A world whose endpoint answers every request with [r]. *)
Definition world (r : Result (@Response lib)) : @World lib :=
  @Build_World lib now (fun _ _ _ => r).

Definition two_rows : JSON Q :=
  JArr [ row 1699992000000 "36500.5" "36600" "36400.25" "36550" "12.5";
         row 1699995600000 "36550" "36700" "36500" "36650.75" "8" ].

Definition descending_rows : JSON Q :=
  JArr [ row 1699995600000 "36550" "36700" "36500" "36650.75" "8";
         row 1699992000000 "36500.5" "36600" "36400.25" "36550" "12.5" ].






(** One row more than the page limit. *)
Definition many_rows : JSON Q :=
  JArr (repeat (row 1699992000000 "36500.5" "36600" "36400.25" "36550" "12.5") 1001).

(** A world whose endpoint answers 200 with the JSON document [body]. *)
Definition serving (body : JSON Q) : @World lib :=
  world (inr (answer 200 "OK" (inr body))).

(** The Kline rows of [two_rows]. *)
Definition two_klines : list (@Kline lib) :=
  [ @Build_Kline lib 1699992000000000000 (365005 # 10) (36600 # 1) (3640025 # 100)
      (36550 # 1) (125 # 10);
    @Build_Kline lib 1699995600000000000 (36550 # 1) (36700 # 1) (36500 # 1)
      (3665075 # 100) (8 # 1) ].

(** The parameters of a request for [days = 2] at [now]. *)
Definition default_params : dict :=
  [ ("symbol", PStr "BTCUSDT"); ("interval", PStr "1h"); ("limit", PInt 1000);
    ("startTime", PInt 1699827200000) ].

(** The parameters of a request with [end_time = now] only. *)
Definition end_params : dict :=
  [ ("symbol", PStr "BTCUSDT"); ("interval", PStr "1h"); ("limit", PInt 1000);
    ("endTime", PInt 1700000000000) ].

Definition globals : Globals :=
  {| BINANCE_API_KEY := Some (TStr "key"); BINANCE_API_SECRET := Some (TStr "secret") |}.

(** A host with Streamlit whose secrets hold the key, the secret being in
    the environment. *)
Definition host : Host :=
  {| st := Some (inr {[ "general" := TTable {[ "BINANCE_API_KEY" := TStr "from-secrets" ]} ]});
     environ := {[ "BINANCE_API_SECRET" := "from-env" ]} |}.

(** A host with Streamlit and no secrets file, both credentials being in the
    environment (a local run from a .env file). *)
Definition host_without_secrets_file : Host :=
  {| st := Some (inl (Exn "FileNotFoundError" "No secrets files found."));
     environ := {[ "BINANCE_API_KEY" := "from-env"; "BINANCE_API_SECRET" := "from-env" ]} |}.

(** A host whose secrets file has a text under [general], not a table. *)
Definition host_with_text_general : Host :=
  {| st := Some (inr {[ "general" := TStr "BINANCE_API_KEY" ]});
     environ := {[ "BINANCE_API_KEY" := "from-env" ]} |}.

End Exact.

(** ** The self-test (the [__main__] block) *)


(** The further pandas calls of the self-test. *)
Class LibTest (L : Lib) : Type := {
  (** A Timestamp passed where a datetime is expected. *)
  Timestamp_as_datetime : Timestamp -> datetime;
  (** [col.max()] on a column. *)
  Series_max : list (cell Timestamp float) -> Result Timestamp;
  (** [pd.Timedelta(hours=h)]. *)
  pd_Timedelta_hours : Z -> Result Timedelta;
  (** [ts + td]. *)
  Timestamp_add : Timestamp -> Timedelta -> Result Timestamp
}.

Section SelfTest.

Context {L : Lib} {T : LibTest L}.

(** [df.empty]: no rows (a table without columns has none). *)
Definition df_is_empty (df : DataFrame Timestamp float) : bool :=
  Nat.eqb (df_len df) 0.

Definition newline : string := String (ascii_of_nat 10) EmptyString.

Definition testing_line (symbol : string) : string :=
  "Testing incremental fetch for " +:+ symbol +:+ "..." +:+ newline.

Definition initial_line (rows : nat) : string :=
  "Initial fetch: " +:+ str_int (Z.of_nat rows) +:+ " rows".

Definition incremental_line (rows : nat) : string :=
  "Incremental fetch: " +:+ str_int (Z.of_nat rows) +:+ " new rows".

(** Lines 107-117.  [w1] is the outside at the first call of [fetch_klines],
    [w2] the outside at the second; the second call leaves [days] at its
    default, 30. *)
Definition main (g : Globals) (w1 w2 : World) : IO unit :=
  let symbol := "BTCUSDT" in
  do _ <- print (testing_line symbol);
  do df <- fetch_klines g w1 symbol "1h" 2 None None;
  do _ <- print (initial_line (df_len df));
  if negb (df_is_empty df) then
    do col <- lift (df_getitem "open_time" df);
    do last_time <- lift (Series_max col);
    do td <- lift (pd_Timedelta_hours 1);
    do start <- lift (Timestamp_add last_time td);
    do df_new <- fetch_klines g w2 symbol "1h" 30 (Some (Timestamp_as_datetime start)) None;
    do _ <- print (incremental_line (df_len df_new));
    ret tt
  else ret tt.

End SelfTest.

(** The reference implementation of the self-test's calls, and sample
    values. *)
Module ExactTest.

Definition time_of (c : cell Z Q) : option Z :=
  match c with
  | CTime t => Some t
  | _ => None
  end.

(** The greatest datetime of a column that has one. *)
Definition series_max (col : list (cell Z Q)) : Result Z :=
  match omap time_of col with
  | [] => raise "ValueError" "no datetime value"
  | t :: ts => inr (fold_left Z.max ts t)
  end.

Definition lib : LibTest Exact.lib :=
  @Build_LibTest Exact.lib
    (fun ts : Z => ts)
    series_max
    (fun h : Z => Exact.bounded "OutOfBoundsTimedelta" (h * 3600 * 1000000000))
    (fun ts td : Z => Exact.bounded "OutOfBoundsDatetime" (ts + td)).


(** A world that answers 200 with [first] to a request that has the default
    lower bound of [Exact.default_params], and 200 with [later] to any
    other. *)
Definition serving_then (first later : JSON Q) : @World Exact.lib :=
  @Build_World Exact.lib Exact.now
    (fun _ params _ =>
       match dict_get "startTime" params with
       | Some (PInt 1699827200000) => inr (Exact.answer 200 "OK" (inr first))
       | _ => inr (Exact.answer 200 "OK" (inr later))
       end).

(** The parameters of the incremental request after [Exact.two_rows]. *)
Definition incremental_params : dict :=
  [ ("symbol", PStr "BTCUSDT"); ("interval", PStr "1h"); ("limit", PInt 1000);
    ("startTime", PInt 1699999200000) ].

(** The world of [Exact.serving Exact.two_rows] an hour later. *)
Definition an_hour_later : @World Exact.lib :=
  @Build_World Exact.lib (Exact.now + 3600 * 1000000000)
    (fun _ _ _ => inr (Exact.answer 200 "OK" (inr Exact.two_rows))).


End ExactTest.

(** * Facts about the table construction *)

Section Frames.

Context {L : Lib}.

#[local] Abbreviation json_t := (JSON float).
#[local] Abbreviation cell_t := (cell Timestamp float).



Lemma length_column (j : nat) (rows : list (list json_t)) :
  length (column j rows : list cell_t) = length rows.
Proof. unfold column. apply length_map. Qed.

(** A list of lists of the right width is its rows, item lists unwrapped. *)
Lemma regular_rows_inv (width : nat) (rows : list json_t) (iss : list (list json_t)) :
  regular_rows width (JArr rows) = Some iss -> rows = map JArr iss.
Proof.
  cbn. revert iss. induction rows as [|r rows IH]; intros iss H.
  - cbn in H. injection H as <-. reflexivity.
  - cbn in H. destruct (row_items width r) as [its|] eqn:Hr; [|discriminate].
    cbn in H. destruct (mapM (row_items width) rows) as [iss'|]; [|discriminate].
    cbn in H. injection H as <-. cbn. f_equal; [|apply IH; reflexivity].
    destruct r; try discriminate. cbn in Hr.
    destruct (Nat.eqb (length items) width); [|discriminate]. congruence.
Qed.

(** On a regular response the table is the six converted columns. *)
Lemma to_frame_regular (data : json_t) (rows : list (list json_t)) :
  regular_rows 12 data = Some rows ->
  to_frame data =
  (let? t := convert to_datetime_ms (column 0 rows) in
   let? o := convert astype_float (column 1 rows) in
   let? h := convert astype_float (column 2 rows) in
   let? l := convert astype_float (column 3 rows) in
   let? c := convert astype_float (column 4 rows) in
   let? v := convert astype_float (column 5 rows) in
   inr [ ("open_time", map CTime t); ("open", map CFloat o); ("high", map CFloat h);
         ("low", map CFloat l); ("close", map CFloat c); ("volume", map CFloat v) ]).
Proof.
  intros Hreg. unfold to_frame, pd_DataFrame. cbn [length response_columns].
  rewrite Hreg. cbn.
  unfold pd_to_datetime.
  destruct (convert to_datetime_ms (column 0 rows)) as [e|t]; [reflexivity|]. cbn.
  destruct (convert astype_float (column 1 rows)) as [e|o]; [reflexivity|]. cbn.
  destruct (convert astype_float (column 2 rows)) as [e|h]; [reflexivity|]. cbn.
  destruct (convert astype_float (column 3 rows)) as [e|l]; [reflexivity|]. cbn.
  destruct (convert astype_float (column 4 rows)) as [e|c]; [reflexivity|]. cbn.
  destruct (convert astype_float (column 5 rows)) as [e|v]; reflexivity.
Qed.


(** Rows that all read as Kline rows are regular, and each of the six columns
    converts to the matching field of the Kline rows. *)
Lemma rows_parse (rows : list json_t) (ks : list Kline) :
  Forall2 (fun row k => spec_kline_of_row row = inr k) rows ks ->
  exists iss,
    regular_rows 12 (JArr rows) = Some iss /\
    convert to_datetime_ms (column 0 iss) = inr (map open_time ks) /\
    convert astype_float (column 1 iss) = inr (map open ks) /\
    convert astype_float (column 2 iss) = inr (map high ks) /\
    convert astype_float (column 3 iss) = inr (map low ks) /\
    convert astype_float (column 4 iss) = inr (map close ks) /\
    convert astype_float (column 5 iss) = inr (map volume ks).
Proof.
  intros Hrows. induction Hrows as [|row k rows ks Hrow _ IH].
  - exists []. repeat split; reflexivity.
  - destruct IH as (iss & Hreg & H0 & H1 & H2 & H3 & H4 & H5).
    unfold spec_kline_of_row in Hrow.
    destruct (row_items 12 row) as [items|] eqn:Hitems; [|discriminate].
    destruct (to_datetime_ms (CRaw (nth 0 items JNull))) as [|t] eqn:E0; [discriminate|].
    destruct (astype_float (CRaw (nth 1 items JNull))) as [|o] eqn:E1; [discriminate|].
    destruct (astype_float (CRaw (nth 2 items JNull))) as [|h] eqn:E2; [discriminate|].
    destruct (astype_float (CRaw (nth 3 items JNull))) as [|l] eqn:E3; [discriminate|].
    destruct (astype_float (CRaw (nth 4 items JNull))) as [|c] eqn:E4; [discriminate|].
    destruct (astype_float (CRaw (nth 5 items JNull))) as [|v] eqn:E5; [discriminate|].
    cbn in Hrow. injection Hrow as <-.
    exists (items :: iss). cbn in Hreg |- *. rewrite Hitems, Hreg. cbn.
    rewrite E0, E1, E2, E3, E4, E5. cbn.
    fold (column 0 iss) (column 1 iss) (column 2 iss) (column 3 iss) (column 4 iss)
      (column 5 iss).
    rewrite H0, H1, H2, H3, H4, H5. repeat split; reflexivity.
Qed.

(** A regular response whose rows all read as Kline rows becomes their
    table. *)
Lemma to_frame_rows (rows : list json_t) (ks : list Kline) :
  Forall2 (fun row k => spec_kline_of_row row = inr k) rows ks ->
  to_frame (JArr rows) = inr (spec_table ks).
Proof.
  intros Hrows. destruct (rows_parse rows ks Hrows) as (iss & Hreg & H0 & H1 & H2 & H3 & H4 & H5).
  rewrite (to_frame_regular _ _ Hreg), H0, H1, H2, H3, H4, H5. cbn.
  unfold spec_table. rewrite !map_map. reflexivity.
Qed.


Lemma df_len_spec_table (ks : list Kline) : df_len (spec_table ks) = length ks.
Proof. cbn. apply length_map. Qed.

Lemma open_times_spec_table (ks : list Kline) :
  open_times (spec_table ks) = map open_time ks.
Proof.
  unfold open_times. cbn. induction ks as [|k ks IH]; [reflexivity|].
  cbn. f_equal. exact IH.
Qed.

End Frames.

(** * Facts about the fetcher *)

Section Facts.

Context {L : Lib}.

Variables (g : Globals) (w : World) (symbol interval : string) (days : Z).
Variables (start_time end_time : option datetime).

#[local] Abbreviation args_params :=
  (request_params w symbol interval days start_time end_time).
#[local] Abbreviation body :=
  (fetch_klines_try w symbol interval days start_time end_time).
#[local] Abbreviation call :=
  (fetch_klines g w symbol interval days start_time end_time).

(** The [try] body, stage by stage. *)
Lemma fetch_klines_try_eq :
  body =
  match args_params with
  | inl e => (inl e, [])
  | inr params =>
      let sent := EGet base_url params 10 in
      match requests_get w base_url params 10 with
      | inl e => (inl e, [sent])
      | inr response =>
          match raise_for_status response with
          | inl e => (inl e, [sent])
          | inr _ =>
              match json response with
              | inl e => (inl e, [sent])
              | inr data =>
                  match no_data data with
                  | inl e => (inl e, [sent])
                  | inr true => (inr df_empty, [sent; EPrint (warn_line symbol params)])
                  | inr false =>
                      match to_frame data with
                      | inl e => (inl e, [sent])
                      | inr df => (inr df, [sent; EPrint (ok_line symbol (df_len df))])
                      end
                  end
              end
          end
      end
  end.
Proof.
  unfold fetch_klines_try.
  destruct (request_params w symbol interval days start_time end_time) as [e|params];
    [reflexivity|].
  cbn. destruct (requests_get w base_url params 10) as [e|response]; [reflexivity|].
  cbn. destruct (raise_for_status response) as [e|[]]; [reflexivity|].
  cbn. destruct (json response) as [e|data]; [reflexivity|].
  cbn. destruct (no_data data) as [e|[|]]; [reflexivity| reflexivity |].
  cbn. destruct (to_frame data) as [e|df]; reflexivity.
Qed.

(** The whole call in terms of its [try] body. *)
Lemma fetch_klines_eq :
  call =
  match body with
  | (inr df, t) => (inr df, t)
  | (inl e, t) => (inr df_empty, t ++ [EPrint (error_line symbol e); ESleep 2])
  end.
Proof.
  unfold fetch_klines, try_except.
  destruct (fetch_klines_try w symbol interval days start_time end_time) as [[e|df] t];
    reflexivity.
Qed.

(** Case analysis on the outcome of each stage of the [try] body, in the
    order they run. *)
Ltac case_stage :=
  match goal with
  | |- context [match ?x with inl _ => _ | inr _ => _ end] =>
      lazymatch x with
      | fst _ => fail
      | _ => destruct x as [?|?]
      end
  | |- context [if ?b then _ else _] =>
      lazymatch type of b with
      | bool => destruct b
      end
  end.

Ltac by_stages := repeat (cbn beta iota zeta; case_stage); reflexivity.

(** The requests a call sends. *)
Lemma call_requests :
  List.filter is_get (snd call) =
  match args_params with
  | inr params => [EGet base_url params 10]
  | inl _ => []
  end.
Proof. rewrite fetch_klines_eq, fetch_klines_try_eq. by_stages. Qed.

Lemma call_get_event (u : string) (p : dict) (tm : Z) :
  In (EGet u p tm) (snd call) -> u = base_url /\ tm = 10 /\ args_params = inr p.
Proof.
  intros Hin.
  assert (H : In (EGet u p tm) (List.filter is_get (snd call)))
    by (apply filter_In; split; [assumption | reflexivity]).
  rewrite call_requests in H. destruct args_params as [e|params]; [destruct H|].
  destruct H as [H|[]]. injection H as <- <- <-. repeat split; reflexivity.
Qed.


(** The call never raises. *)
Lemma call_returns : exists df, fst call = inr df.
Proof.
  rewrite fetch_klines_eq. destruct body as [[e|df] t]; cbn; eauto.
Qed.


(** A call whose [try] body returns. *)
Lemma call_returned (df : DataFrame Timestamp float) (t : list Event) :
  body = (inr df, t) -> call = (inr df, t).
Proof. intros H. rewrite fetch_klines_eq, H. reflexivity. Qed.

(** The body on a response that passed the status check and was decoded. *)
Lemma body_decoded (params : dict) (response : Response) (data : JSON float) :
  args_params = inr params ->
  requests_get w base_url params 10 = inr response ->
  raise_for_status response = inr tt ->
  json response = inr data ->
  body =
  match no_data data with
  | inl e => (inl e, [EGet base_url params 10])
  | inr true => (inr df_empty, [EGet base_url params 10; EPrint (warn_line symbol params)])
  | inr false =>
      match to_frame data with
      | inl e => (inl e, [EGet base_url params 10])
      | inr df => (inr df, [EGet base_url params 10; EPrint (ok_line symbol (df_len df))])
      end
  end.
Proof.
  intros Hp Hget Hstatus Hjson.
  rewrite fetch_klines_try_eq, Hp. cbn zeta. rewrite Hget, Hstatus, Hjson. reflexivity.
Qed.

End Facts.

Section Status.

Context {L : Lib}.



End Status.

(** * Facts about the request parameters *)

Section Params.

Context {L : Lib}.

Variables (w : World) (symbol interval : string) (days : Z).

(** The three parameters every request carries. *)
Lemma request_params_fixed (start_time end_time : option datetime) (params : dict) :
  request_params w symbol interval days start_time end_time = inr params ->
  dict_get "symbol" params = Some (PStr symbol) /\
  dict_get "interval" params = Some (PStr interval) /\
  dict_get "limit" params = Some (PInt 1000).
Proof.
  unfold request_params. intros H.
  destruct start_time as [t|], end_time as [t'|]; cbn in H;
    repeat match type of H with
      | context [pd_Timestamp ?x] => destruct (pd_Timestamp x); cbn in H
      | context [pd_Timedelta ?x] => destruct (pd_Timedelta x); cbn in H
      | context [Timestamp_sub ?x ?y] => destruct (Timestamp_sub x y); cbn in H
      end;
    try discriminate; injection H as <-; repeat split; reflexivity.
Qed.

(** A given [start_time] becomes [startTime]. *)
Lemma request_params_start (t : datetime) (end_time : option datetime) (params : dict) :
  request_params w symbol interval days (Some t) end_time = inr params ->
  exists ts, pd_Timestamp t = inr ts /\
             dict_get "startTime" params = Some (PInt (epoch_ms ts)).
Proof.
  unfold request_params. intros H. cbn in H.
  destruct (pd_Timestamp t) as [e|ts]; [discriminate|]. cbn in H.
  exists ts. split; [reflexivity|].
  destruct end_time as [t'|]; cbn in H.
  - destruct (pd_Timestamp t') as [e|ts']; [discriminate|]. cbn in H.
    injection H as <-. reflexivity.
  - injection H as <-. reflexivity.
Qed.

(** A given [end_time] becomes [endTime]. *)
Lemma request_params_end (start_time : option datetime) (t : datetime) (params : dict) :
  request_params w symbol interval days start_time (Some t) = inr params ->
  exists ts, pd_Timestamp t = inr ts /\
             dict_get "endTime" params = Some (PInt (epoch_ms ts)).
Proof.
  unfold request_params. intros H.
  destruct start_time as [t0|]; cbn in H.
  - destruct (pd_Timestamp t0) as [e|ts0]; [discriminate|]. cbn in H.
    destruct (pd_Timestamp t) as [e|ts]; [discriminate|]. cbn in H.
    injection H as <-. exists ts. split; reflexivity.
  - destruct (pd_Timestamp t) as [e|ts]; [discriminate|]. cbn in H.
    injection H as <-. exists ts. split; reflexivity.
Qed.

(** With an [end_time] and no [start_time] the parameters are the fixed
    three and [endTime]. *)
Lemma request_params_end_only (t : datetime) (params : dict) :
  request_params w symbol interval days None (Some t) = inr params ->
  exists ts, pd_Timestamp t = inr ts /\
             params = [ ("symbol", PStr symbol); ("interval", PStr interval);
                        ("limit", PInt 1000); ("endTime", PInt (epoch_ms ts)) ].
Proof.
  unfold request_params. intros H. cbn in H.
  destruct (pd_Timestamp t) as [e|ts]; [discriminate|]. cbn in H.
  injection H as <-. exists ts. split; reflexivity.
Qed.

(** With neither time the parameters are the fixed three and the default
    [startTime]. *)
Lemma request_params_default (params : dict) :
  request_params w symbol interval days None None = inr params ->
  exists td ts, pd_Timedelta days = inr td /\ Timestamp_sub (utcnow w) td = inr ts /\
                params = [ ("symbol", PStr symbol); ("interval", PStr interval);
                           ("limit", PInt 1000); ("startTime", PInt (epoch_ms ts)) ].
Proof.
  unfold request_params. intros H. cbn in H.
  destruct (pd_Timedelta days) as [e|td] eqn:Htd; [discriminate|]. cbn in H.
  destruct (Timestamp_sub (utcnow w) td) as [e|ts] eqn:Hts; [discriminate|]. cbn in H.
  injection H as <-. exists td, ts. repeat split. exact Hts.
Qed.

End Params.

(** * Facts about the standard output *)

Section Stdout.

Context {L : Lib}.

Variables (out : string -> Result unit) (g : Globals) (w : World).
Variables (symbol interval : string) (days : Z) (start_time end_time : option datetime).



End Stdout.

(** On a standard output that takes every line the fetcher is
    [fetch_klines]. *)
Lemma fetch_klines_on_accepting {L : Lib} (g : Globals) (w : World)
  (symbol interval : string) (days : Z) (start_time end_time : option datetime) :
  fetch_klines_on (fun _ => inr tt) g w symbol interval days start_time end_time =
  fetch_klines g w symbol interval days start_time end_time.
Proof. reflexivity. Qed.

(** * Facts about the text of the parameters *)





Section ParamsText.

Context {L : Lib}.



End ParamsText.

(** * The secret resolver *)

(** C7.  With Streamlit importable and its secrets not loadable (there is no
    secrets file), [get_secret] raises the loading error for every key,
    whatever the environment holds, where it was to fall back on the
    environment variable; so does the loading of the two credentials, which
    is the import of the module. *)
Theorem get_secret_raises_without_secrets (e : exn) (env : gmap string string)
  (key : string) :
  get_secret {| st := Some (inl e); environ := env |} key = inl e /\
  load_keys {| st := Some (inl e); environ := env |} = inl e.
Proof. split; reflexivity. Qed.

(** * The fetcher *)

Section Claims.

Context {L : Lib}.

Variables (g : Globals) (w : World) (symbol interval : string) (days : Z).

(** C8. The credentials are not used by the fetch: under any two assignments
    of the two credential globals a call performs the same events, the HTTP
    request among them, and returns the same result. *)
Theorem fetch_klines_ignores_credentials (g1 g2 : Globals)
  (start_time end_time : option datetime) :
  fetch_klines g1 w symbol interval days start_time end_time =
  fetch_klines g2 w symbol interval days start_time end_time.
Proof. unfold fetch_klines. reflexivity. Qed.


(** C2 (amended). In a call with neither [start_time] nor [end_time], the
    request that is sent carries as [startTime] the epoch-milliseconds of the
    current UTC time minus [days]. *)
Theorem default_start_time (u : string) (params : dict) (timeout : Z) :
  In (EGet u params timeout) (snd (fetch_klines g w symbol interval days None None)) ->
  exists td ts,
    pd_Timedelta days = inr td /\
    Timestamp_sub (utcnow w) td = inr ts /\
    dict_get "startTime" params = Some (PInt (epoch_ms ts)).
Proof.
  intros Hin. apply call_get_event in Hin. destruct Hin as (_ & _ & Hp).
  apply request_params_default in Hp. destruct Hp as (td & ts & Htd & Hts & ->).
  exists td, ts. repeat split; assumption.
Qed.

(** C3. In a call with an [end_time] and no [start_time], the request that is
    sent carries [endTime], the epoch-milliseconds of [end_time], and no
    [startTime]: its parameters are symbol, interval, limit and endTime. *)
Theorem end_time_without_start_time (t : datetime) (u : string) (params : dict)
  (timeout : Z) :
  In (EGet u params timeout) (snd (fetch_klines g w symbol interval days None (Some t))) ->
  dict_get "startTime" params = None /\
  dict_keys params = ["symbol"; "interval"; "limit"; "endTime"] /\
  exists ts, pd_Timestamp t = inr ts /\
             dict_get "endTime" params = Some (PInt (epoch_ms ts)).
Proof.
  intros Hin. apply call_get_event in Hin. destruct Hin as (_ & _ & Hp).
  apply request_params_end_only in Hp. destruct Hp as (ts & Hts & ->).
  repeat split. exists ts. split; [assumption | reflexivity].
Qed.

(** C4 (amended). A call whose request parameters can be computed sends
    exactly one request: a GET to the klines URL with a timeout of 10 and
    with the given symbol, the given interval and limit 1000 among its
    parameters, [startTime] being the epoch-milliseconds of a given
    [start_time] and [endTime] those of a given [end_time].  A call whose
    time conversions raise sends no request. *)
Theorem one_get_request (start_time end_time : option datetime) :
  match request_params w symbol interval days start_time end_time with
  | inr params =>
      List.filter is_get (snd (fetch_klines g w symbol interval days start_time end_time))
        = [EGet "https://data-api.binance.vision/api/v3/klines" params 10] /\
      dict_get "symbol" params = Some (PStr symbol) /\
      dict_get "interval" params = Some (PStr interval) /\
      dict_get "limit" params = Some (PInt 1000) /\
      (forall t, start_time = Some t ->
         exists ts, pd_Timestamp t = inr ts /\
                    dict_get "startTime" params = Some (PInt (epoch_ms ts))) /\
      (forall t, end_time = Some t ->
         exists ts, pd_Timestamp t = inr ts /\
                    dict_get "endTime" params = Some (PInt (epoch_ms ts)))
  | inl _ =>
      List.filter is_get (snd (fetch_klines g w symbol interval days start_time end_time))
        = []
  end.
Proof.
  pose proof (call_requests g w symbol interval days start_time end_time) as Hreq.
  destruct (request_params w symbol interval days start_time end_time) as [e|params] eqn:Hp;
    [exact Hreq|].
  split; [exact Hreq|].
  destruct (request_params_fixed _ _ _ _ _ _ _ Hp) as (Hs & Hi & Hl).
  repeat split; try assumption.
  - intros t ->. exact (request_params_start _ _ _ _ _ _ _ Hp).
  - intros t ->. exact (request_params_end _ _ _ _ _ _ _ Hp).
Qed.



(** C9 (amended). The table of a successful call on a regular response holds
    the response's rows in the response's order, one Kline row each: its
    open times are those of the response, in order, and it has as many rows.
    So it is ascending by open_time when the response is, and has at most
    1000 rows when the response has. *)
Theorem rows_kept_in_order (start_time end_time : option datetime) (params : dict)
  (r : Response) (rows : list (JSON float)) (ks : list Kline) :
  request_params w symbol interval days start_time end_time = inr params ->
  requests_get w base_url params 10 = inr r ->
  raise_for_status r = inr tt ->
  json r = inr (JArr rows) ->
  rows <> [] ->
  Forall2 (fun row k => spec_kline_of_row row = inr k) rows ks ->
  exists df,
    fst (fetch_klines g w symbol interval days start_time end_time) = inr df /\
    open_times df = map open_time ks /\
    df_len df = length rows /\
    (ascending (map open_time ks) = true -> ascending (open_times df) = true) /\
    ((length rows <= 1000)%nat -> (df_len df <= 1000)%nat).
Proof.
  intros Hp Hget Hstatus Hjson Hne Hrows.
  pose proof (body_decoded _ _ _ _ _ _ _ _ _ Hp Hget Hstatus Hjson) as Hbody.
  destruct rows as [|r0 rows']; [congruence|].
  change (no_data (JArr (r0 :: rows'))) with (inr false : Result bool) in Hbody.
  rewrite (to_frame_rows _ _ Hrows) in Hbody.
  exists (spec_table ks). rewrite (call_returned g _ _ _ _ _ _ _ _ Hbody).
  rewrite open_times_spec_table, df_len_spec_table, <- (Forall2_length _ _ _ Hrows).
  repeat split; auto.
Qed.


End Claims.

(** * The claims on sample calls *)

#[local] Existing Instance Exact.lib.



(** Against C2 as stated: with an [end_time] and no [start_time] the
    request has no [startTime]. *)
Lemma end_time_only_has_no_start :
  snd (fetch_klines Exact.globals (Exact.serving Exact.two_rows)
         "BTCUSDT" "1h" 30 None (Some Exact.now))
  = [ EGet base_url
        [ ("symbol", PStr "BTCUSDT"); ("interval", PStr "1h"); ("limit", PInt 1000);
          ("endTime", PInt 1700000000000) ] 10;
      EPrint "[OK] Data fetched for BTCUSDT: 2 rows" ] /\
  dict_get "startTime" Exact.end_params = None.
Proof. split; reflexivity. Qed.

Lemma default_start_time_witness :
  In (EGet base_url Exact.default_params 10)
     (snd (fetch_klines Exact.globals (Exact.serving Exact.two_rows)
             "BTCUSDT" "1h" 2 None None)) /\
  exists td ts,
    pd_Timedelta 2 = inr td /\
    Timestamp_sub Exact.now td = inr ts /\
    dict_get "startTime" Exact.default_params = Some (PInt (epoch_ms ts)).
Proof.
  assert (H : In (EGet base_url Exact.default_params 10)
                 (snd (fetch_klines Exact.globals (Exact.serving Exact.two_rows)
                         "BTCUSDT" "1h" 2 None None)))
    by (left; reflexivity).
  split; [exact H|].
  exact (default_start_time Exact.globals (Exact.serving Exact.two_rows)
           "BTCUSDT" "1h" 2 base_url Exact.default_params 10 H).
Defined.

Lemma end_time_without_start_time_witness :
  In (EGet base_url Exact.end_params 10)
     (snd (fetch_klines Exact.globals (Exact.serving Exact.two_rows)
             "BTCUSDT" "1h" 30 None (Some Exact.now))) /\
  dict_get "startTime" Exact.end_params = None /\
  dict_keys Exact.end_params = ["symbol"; "interval"; "limit"; "endTime"] /\
  exists ts, pd_Timestamp Exact.now = inr ts /\
             dict_get "endTime" Exact.end_params = Some (PInt (epoch_ms ts)).
Proof.
  assert (H : In (EGet base_url Exact.end_params 10)
                 (snd (fetch_klines Exact.globals (Exact.serving Exact.two_rows)
                         "BTCUSDT" "1h" 30 None (Some Exact.now))))
    by (left; reflexivity).
  split; [exact H|].
  exact (end_time_without_start_time Exact.globals (Exact.serving Exact.two_rows)
           "BTCUSDT" "1h" 30 Exact.now base_url Exact.end_params 10 H).
Defined.

(** Against C4 as stated: a lookback of 200000 days is more than a Timedelta
    holds, so the parameters cannot be computed and the call sends no request
    at all. *)
Lemma huge_lookback_sends_no_request :
  fst (fetch_klines Exact.globals (Exact.serving Exact.two_rows)
         "BTCUSDT" "1h" 200000 None None) = inr df_empty /\
  List.filter is_get
    (snd (fetch_klines Exact.globals (Exact.serving Exact.two_rows)
            "BTCUSDT" "1h" 200000 None None)) = [] /\
  List.filter is_sleep
    (snd (fetch_klines Exact.globals (Exact.serving Exact.two_rows)
            "BTCUSDT" "1h" 200000 None None)) = [ESleep 2].
Proof. repeat split; reflexivity. Qed.

Lemma one_get_request_witness :
  request_params (Exact.serving Exact.two_rows) "BTCUSDT" "1h" 30
    (Some 1699992000000000000) (Some Exact.now)
  = inr [ ("symbol", PStr "BTCUSDT"); ("interval", PStr "1h"); ("limit", PInt 1000);
          ("startTime", PInt 1699992000000); ("endTime", PInt 1700000000000) ] /\
  List.filter is_get
    (snd (fetch_klines Exact.globals (Exact.serving Exact.two_rows) "BTCUSDT" "1h" 30
            (Some 1699992000000000000) (Some Exact.now)))
  = [ EGet "https://data-api.binance.vision/api/v3/klines"
        [ ("symbol", PStr "BTCUSDT"); ("interval", PStr "1h"); ("limit", PInt 1000);
          ("startTime", PInt 1699992000000); ("endTime", PInt 1700000000000) ] 10 ].
Proof.
  split; [reflexivity|].
  exact (proj1 (one_get_request Exact.globals (Exact.serving Exact.two_rows)
                  "BTCUSDT" "1h" 30 (Some 1699992000000000000) (Some Exact.now))).
Defined.


(** The warning line of a symbol that [repr] does not leave as it is: a
    no-break space, which is escaped, and a single quote, which makes the
    quotes double. *)
Lemma warn_line_of_an_escaped_symbol :
  warn_line (String (ascii_of_nat 160) "a'b")
    [ ("symbol", PStr (String (ascii_of_nat 160) "a'b")); ("interval", PStr "1h");
      ("limit", PInt 1000); ("startTime", PInt 1699827200000) ]
  = "[WARN] No data returned for " +:+ String (ascii_of_nat 160) "a'b"
    +:+ ". Params: {'symbol': "
    +:+ String dquote (String backslash "xa0a'b")
    +:+ String dquote ", 'interval': '1h', 'limit': 1000, 'startTime': 1699827200000}".
Proof. reflexivity. Qed.

Lemma two_rows_read_as_klines :
  Forall2 (fun row k => spec_kline_of_row row = inr k)
    [ Exact.row 1699992000000 "36500.5" "36600" "36400.25" "36550" "12.5";
      Exact.row 1699995600000 "36550" "36700" "36500" "36650.75" "8" ]
    Exact.two_klines.
Proof. repeat constructor. Defined.


(** Against C9 as stated: the endpoint's order and row count are the
    table's.  A response in descending order gives a descending table, and
    one of 1001 rows a table of 1001 rows. *)
Lemma response_order_and_size_kept :
  (exists df,
     fetch_klines Exact.globals (Exact.serving Exact.descending_rows)
       "BTCUSDT" "1h" 2 None None
     = (inr df, [ EGet base_url Exact.default_params 10;
                  EPrint "[OK] Data fetched for BTCUSDT: 2 rows" ]) /\
     open_times df = [1699995600000000000; 1699992000000000000] /\
     ascending (open_times df) = false) /\
  (exists df,
     fetch_klines Exact.globals (Exact.serving Exact.many_rows)
       "BTCUSDT" "1h" 2 None None
     = (inr df, [ EGet base_url Exact.default_params 10;
                  EPrint "[OK] Data fetched for BTCUSDT: 1001 rows" ]) /\
     df_len df = 1001%nat).
Proof.
  split.
  - eexists. split; [vm_compute; reflexivity|]. split; vm_compute; reflexivity.
  - eexists. split; [vm_compute; reflexivity|]. vm_compute; reflexivity.
Qed.

Lemma rows_kept_in_order_witness :
  exists df,
    fst (fetch_klines Exact.globals (Exact.serving Exact.two_rows)
           "BTCUSDT" "1h" 2 None None) = inr df /\
    open_times df = [1699992000000000000; 1699995600000000000] /\
    df_len df = 2%nat /\
    ascending (open_times df) = true /\
    (df_len df <= 1000)%nat.
Proof.
  destruct (rows_kept_in_order Exact.globals (Exact.serving Exact.two_rows)
              "BTCUSDT" "1h" 2 None None Exact.default_params
              (Exact.answer 200 "OK" (inr Exact.two_rows))
              [ Exact.row 1699992000000 "36500.5" "36600" "36400.25" "36550" "12.5";
                Exact.row 1699995600000 "36550" "36700" "36500" "36650.75" "8" ]
              Exact.two_klines eq_refl eq_refl eq_refl eq_refl
              (fun H => eq_ind [] (fun l => match l with [] => True | _ => False end) I _
                          (eq_sym H))
              two_rows_read_as_klines)
    as (df & Hdf & Htimes & Hlen & Hasc & Hsize).
  exists df. split; [exact Hdf|]. split; [exact Htimes|]. split; [exact Hlen|].
  split; [apply Hasc; reflexivity | apply Hsize; cbn; lia].
Defined.


(** * Further facts: the shape of the table *)

Section Shape.

Context {L : Lib}.

#[local] Abbreviation cells := (list (cell Timestamp float)).

Lemma getitem_setitem_eq (name : string) (col : cells) (df : DataFrame Timestamp float) :
  df_getitem name (df_setitem name col df) = inr col.
Proof.
  induction df as [|[n c] df IH]; cbn.
  - rewrite String.eqb_refl. reflexivity.
  - destruct (String.eqb n name) eqn:E; cbn; rewrite E; [reflexivity | exact IH].
Qed.

Lemma getitem_setitem_ne (name name' : string) (col : cells)
  (df : DataFrame Timestamp float) :
  name' <> name ->
  df_getitem name' (df_setitem name col df) = df_getitem name' df.
Proof.
  intros Hne. induction df as [|[n c] df IH]; cbn.
  - destruct (String.eqb name name') eqn:E; [|reflexivity].
    apply String.eqb_eq in E. congruence.
  - destruct (String.eqb n name) eqn:E; cbn.
    + apply String.eqb_eq in E. subst n.
      destruct (String.eqb name name') eqn:E'; [|reflexivity].
      apply String.eqb_eq in E'. congruence.
    + destruct (String.eqb n name'); [reflexivity | exact IH].
Qed.

(** Whatever the document, a table that [to_frame] builds has the six key
    columns, in order: [open_time] of datetimes, the others of floats. *)
Lemma to_frame_shape (data : JSON float) (df : DataFrame Timestamp float) :
  to_frame data = inr df ->
  exists t o h l c v,
    df = [ ("open_time", map CTime t); ("open", map CFloat o); ("high", map CFloat h);
           ("low", map CFloat l); ("close", map CFloat c); ("volume", map CFloat v) ].
Proof.
  unfold to_frame, pd_to_datetime. intros H.
  destruct (pd_DataFrame data response_columns) as [|df0]; [discriminate|]. cbn in H.
  destruct (df_getitem "open_time" df0) as [|col0]; [discriminate|]. cbn in H.
  destruct (convert to_datetime_ms col0) as [|t]; [discriminate|]. cbn in H.
  set (df1 := df_setitem "open_time" (map CTime t) df0) in H.
  destruct (df_getitem "open" df1) as [|c1]; [discriminate|]. cbn in H.
  destruct (df_getitem "high" df1) as [|c2]; [discriminate|]. cbn in H.
  destruct (df_getitem "low" df1) as [|c3]; [discriminate|]. cbn in H.
  destruct (df_getitem "close" df1) as [|c4]; [discriminate|]. cbn in H.
  destruct (df_getitem "volume" df1) as [|c5]; [discriminate|]. cbn in H.
  destruct (convert astype_float c1) as [|o]; [discriminate|]. cbn in H.
  destruct (convert astype_float c2) as [|h]; [discriminate|]. cbn in H.
  destruct (convert astype_float c3) as [|l]; [discriminate|]. cbn in H.
  destruct (convert astype_float c4) as [|c]; [discriminate|]. cbn in H.
  destruct (convert astype_float c5) as [|v]; [discriminate|]. cbn in H.
  subst df1.
  repeat (rewrite ?getitem_setitem_eq in H;
          rewrite ?getitem_setitem_ne in H by discriminate).
  cbn in H. injection H as <-. exists t, o, h, l, c, v. reflexivity.
Qed.

End Shape.

(** * Further facts: the credentials *)

(** What [get_secret] does on a host without Streamlit, and on one whose
    secrets are loaded.  Without a [general] entry, the environment variable;
    with a table, its value under the key before the environment variable;
    [None] when the key is in neither.  With a scalar under [general] the
    membership test raises; with a text, the lookup raises when the key
    occurs in the text, and the environment variable is returned when it
    does not. *)
Theorem get_secret_lookup_loaded (h : Host) (key : string) :
  (st h = None -> get_secret h key = inr (TStr <$> environ h !! key)) /\
  (forall m, st h = Some (inr m) -> m !! "general" = None ->
     get_secret h key = inr (TStr <$> environ h !! key)) /\
  (forall m t, st h = Some (inr m) -> m !! "general" = Some (TTable t) ->
     get_secret h key =
       inr match t !! key with
           | Some v => Some v
           | None => TStr <$> environ h !! key
           end) /\
  (forall m type_name text,
     st h = Some (inr m) -> m !! "general" = Some (TScalar type_name text) ->
     exists e, get_secret h key = inl e) /\
  (forall m s, st h = Some (inr m) -> m !! "general" = Some (TStr s) ->
     if occurs_in key s then exists e, get_secret h key = inl e
     else get_secret h key = inr (TStr <$> environ h !! key)).
Proof.
  unfold get_secret, in_general, secrets_contains, secrets_getitem, contains, getitem,
    os_getenv.
  repeat split.
  - intros ->. reflexivity.
  - intros m -> Hg. cbn. rewrite Hg. reflexivity.
  - intros m t -> Hg. repeat (progress (cbn; rewrite ?Hg)).
    unfold contains, getitem. destruct (t !! key); reflexivity.
  - intros m type_name text -> Hg. repeat (progress (cbn; rewrite ?Hg)). eauto.
  - intros m s -> Hg. repeat (progress (cbn; rewrite ?Hg)).
    destruct (occurs_in key s); repeat (progress (cbn; rewrite ?Hg)); eauto.
Qed.

(** The loading of the two credentials, which runs when the module is
    imported.  Without Streamlit both are the environment variables of their
    names.  With Streamlit and secrets that cannot be loaded it raises the
    loading error.  With secrets that have a table under [general], each
    credential is the table's value under its name when there is one, the
    environment variable otherwise, and [None] when it is in neither. *)
Theorem load_keys_outcome (h : Host) :
  (st h = None ->
     load_keys h =
       inr {| BINANCE_API_KEY := TStr <$> environ h !! "BINANCE_API_KEY";
              BINANCE_API_SECRET := TStr <$> environ h !! "BINANCE_API_SECRET" |}) /\
  (forall e, st h = Some (inl e) -> load_keys h = inl e) /\
  (forall m t, st h = Some (inr m) -> m !! "general" = Some (TTable t) ->
     load_keys h =
       inr {| BINANCE_API_KEY :=
                match t !! "BINANCE_API_KEY" with
                | Some v => Some v
                | None => TStr <$> environ h !! "BINANCE_API_KEY"
                end;
              BINANCE_API_SECRET :=
                match t !! "BINANCE_API_SECRET" with
                | Some v => Some v
                | None => TStr <$> environ h !! "BINANCE_API_SECRET"
                end |}).
Proof.
  unfold load_keys, get_secret, in_general, secrets_contains, secrets_getitem, contains,
    getitem, os_getenv.
  repeat split.
  - intros ->. reflexivity.
  - intros e ->. reflexivity.
  - intros m t -> Hg. repeat (progress (cbn; rewrite ?Hg)).
    unfold contains, getitem.
    destruct (t !! "BINANCE_API_KEY"); repeat (progress (cbn; rewrite ?Hg));
      destruct (t !! "BINANCE_API_SECRET"); repeat (progress (cbn; rewrite ?Hg));
      reflexivity.
Qed.

(** * Further facts: the fetcher *)

Section More.

Context {L : Lib}.

Variables (g : Globals) (w : World) (symbol interval : string) (days : Z).

(** The names of the parameters of a request, in order: symbol, interval and
    limit, then startTime unless only an [end_time] was given, then endTime
    when an [end_time] was given.  Nothing else is ever sent. *)
Theorem request_parameter_names (start_time end_time : option datetime)
  (u : string) (params : dict) (timeout : Z) :
  In (EGet u params timeout)
     (snd (fetch_klines g w symbol interval days start_time end_time)) ->
  dict_keys params =
    ["symbol"; "interval"; "limit"] ++
    match start_time, end_time with
    | Some _, Some _ => ["startTime"; "endTime"]
    | Some _, None => ["startTime"]
    | None, Some _ => ["endTime"]
    | None, None => ["startTime"]
    end.
Proof.
  intros Hin. apply call_get_event in Hin. destruct Hin as (_ & _ & Hp).
  unfold request_params in Hp.
  destruct start_time as [t|], end_time as [t'|]; cbn in Hp;
    repeat match type of Hp with
      | context [pd_Timestamp ?x] => destruct (pd_Timestamp x); cbn in Hp
      | context [pd_Timedelta ?x] => destruct (pd_Timedelta x); cbn in Hp
      | context [Timestamp_sub ?x ?y] => destruct (Timestamp_sub x y); cbn in Hp
      end;
    try discriminate; injection Hp as <-; reflexivity.
Qed.

(** With a [start_time] or an [end_time], neither [days] nor the clock is
    used: calls that differ in them only, against the same endpoint, perform
    the same events and return the same table. *)
Theorem days_and_clock_unused_with_times (w' : World) (days' : Z)
  (start_time end_time : option datetime) :
  requests_get w = requests_get w' ->
  is_Some start_time \/ is_Some end_time ->
  fetch_klines g w symbol interval days start_time end_time =
  fetch_klines g w' symbol interval days' start_time end_time.
Proof.
  intros Hget Htimes.
  assert (Hp : request_params w symbol interval days start_time end_time =
               request_params w' symbol interval days' start_time end_time).
  { unfold request_params.
    destruct start_time as [t|], end_time as [t'|]; try reflexivity.
    destruct Htimes as [[? [=]]|[? [=]]]. }
  unfold fetch_klines, fetch_klines_try, get. rewrite Hp, Hget. reflexivity.
Qed.






(** The table a call returns, whatever the endpoint sent. *)
Lemma call_table (start_time end_time : option datetime) :
  exists df,
    fst (fetch_klines g w symbol interval days start_time end_time) = inr df /\
    (df = df_empty \/
     exists t o h l c v,
       df = [ ("open_time", map CTime t); ("open", map CFloat o);
              ("high", map CFloat h); ("low", map CFloat l);
              ("close", map CFloat c); ("volume", map CFloat v) ]).
Proof.
  rewrite fetch_klines_eq, fetch_klines_try_eq.
  destruct (request_params w symbol interval days start_time end_time) as [e|params];
    [cbn; eauto|]. cbn zeta.
  destruct (requests_get w base_url params 10) as [e|r]; [cbn; eauto|].
  destruct (raise_for_status r) as [e|[]]; [cbn; eauto|].
  destruct (json r) as [e|data]; [cbn; eauto|].
  destruct (no_data data) as [e|[|]]; [cbn; eauto | cbn; eauto |].
  destruct (to_frame data) as [e|df] eqn:Hdf; [cbn; eauto|].
  exists df. split; [reflexivity|]. right. exact (to_frame_shape _ _ Hdf).
Qed.

(** Whatever the endpoint sends, the table a call returns is either the
    empty table or has exactly the columns open_time, open, high, low, close
    and volume, in this order, open_time holding datetimes and the others
    floats. *)
Theorem returned_table_shape (start_time end_time : option datetime) :
  exists df,
    fst (fetch_klines g w symbol interval days start_time end_time) = inr df /\
    (df = df_empty \/
     exists t o h l c v,
       df = [ ("open_time", map CTime t); ("open", map CFloat o);
              ("high", map CFloat h); ("low", map CFloat l);
              ("close", map CFloat c); ("volume", map CFloat v) ]).
Proof. exact (call_table start_time end_time). Qed.

End More.

(** * Further facts: the self-test *)

Section SelfTestFacts.

Context {L : Lib} {T : LibTest L}.

Variables (g : Globals) (w1 w2 : World).

#[local] Abbreviation first_call := (fetch_klines g w1 "BTCUSDT" "1h" 2 None None).
#[local] Abbreviation second_call start :=
  (fetch_klines g w2 "BTCUSDT" "1h" 30 (Some (Timestamp_as_datetime start)) None).

(** Without an [end_time] there is no [endTime]. *)
Lemma request_params_no_end (w : World) (symbol interval : string) (days : Z)
  (start_time : option datetime) (params : dict) :
  request_params w symbol interval days start_time None = inr params ->
  dict_get "endTime" params = None.
Proof.
  unfold request_params. intros H.
  destruct start_time as [t|]; cbn in H;
    repeat match type of H with
      | context [pd_Timestamp ?x] => destruct (pd_Timestamp x); cbn in H
      | context [pd_Timedelta ?x] => destruct (pd_Timedelta x); cbn in H
      | context [Timestamp_sub ?x ?y] => destruct (Timestamp_sub x y); cbn in H
      end;
    try discriminate; injection H as <-; reflexivity.
Qed.

(** The self-test, stage by stage. *)
Lemma main_eq :
  main g w1 w2 =
  match first_call with
  | (inl e, t1) => (inl e, EPrint (testing_line "BTCUSDT") :: t1)
  | (inr df, t1) =>
      let head := EPrint (testing_line "BTCUSDT") :: t1
                  ++ [EPrint (initial_line (df_len df))] in
      if df_is_empty df then (inr tt, head)
      else
        match df_getitem "open_time" df with
        | inl e => (inl e, head)
        | inr col =>
            match Series_max col with
            | inl e => (inl e, head)
            | inr last_time =>
                match pd_Timedelta_hours 1 with
                | inl e => (inl e, head)
                | inr td =>
                    match Timestamp_add last_time td with
                    | inl e => (inl e, head)
                    | inr start =>
                        match second_call start with
                        | (inl e, t2) => (inl e, head ++ t2)
                        | (inr df_new, t2) =>
                            (inr tt, head ++ t2 ++ [EPrint (incremental_line (df_len df_new))])
                        end
                    end
                end
            end
        end
  end.
Proof.
  unfold main. cbn zeta.
  destruct first_call as [[e|df] t1]; [reflexivity|]. cbn.
  destruct (df_is_empty df); cbn; [rewrite ?app_nil_r; reflexivity|].
  destruct (df_getitem "open_time" df) as [e|col]; cbn; [rewrite ?app_nil_r; reflexivity|].
  destruct (Series_max col) as [e|last_time]; cbn; [rewrite ?app_nil_r; reflexivity|].
  destruct (pd_Timedelta_hours 1) as [e|td]; cbn; [rewrite ?app_nil_r; reflexivity|].
  destruct (Timestamp_add last_time td) as [e|start]; cbn;
    [rewrite ?app_nil_r; reflexivity|].
  destruct (second_call start) as [[e|df_new] t2]; cbn;
    rewrite <- ?app_assoc; cbn; rewrite ?app_nil_r; reflexivity.
Qed.

(** The events of the self-test: the first line, the first call and its row
    count, and then nothing more or the second call and its row count. *)
Lemma main_trace :
  exists df,
    fst first_call = inr df /\
    let head := EPrint (testing_line "BTCUSDT") :: snd first_call
                ++ [EPrint (initial_line (df_len df))] in
    (snd (main g w1 w2) = head \/
     exists start df_new,
       fst (second_call start) = inr df_new /\
       snd (main g w1 w2) =
         head ++ snd (second_call start) ++ [EPrint (incremental_line (df_len df_new))]).
Proof.
  rewrite main_eq.
  destruct (call_returns g w1 "BTCUSDT" "1h" 2 None None) as [df Hdf].
  destruct first_call as [[e|df'] t1]; cbn in Hdf; [discriminate|].
  injection Hdf as ->. exists df. split; [reflexivity|]. cbn zeta. cbn [snd].
  destruct (df_is_empty df); [left; reflexivity|].
  destruct (df_getitem "open_time" df) as [e|col]; [left; reflexivity|].
  destruct (Series_max col) as [e|last_time]; [left; reflexivity|].
  destruct (pd_Timedelta_hours 1) as [e|td]; [left; reflexivity|].
  destruct (Timestamp_add last_time td) as [e|start]; [left; reflexivity|].
  destruct (call_returns g w2 "BTCUSDT" "1h" 30 (Some (Timestamp_as_datetime start)) None)
    as [df_new Hnew].
  right. exists start, df_new. split; [exact Hnew|].
  destruct (second_call start) as [[e|df''] t2]; cbn in Hnew; [discriminate|].
  injection Hnew as ->. reflexivity.
Qed.


(** The self-test sends at most two requests, each a GET to the klines URL
    with a timeout of 10 for BTCUSDT, 1h and limit 1000, and none with an
    [endTime]. *)
Theorem main_requests :
  (length (List.filter is_get (snd (main g w1 w2))) <= 2)%nat /\
  forall u params timeout,
    In (EGet u params timeout) (snd (main g w1 w2)) ->
    u = base_url /\ timeout = 10 /\
    dict_get "symbol" params = Some (PStr "BTCUSDT") /\
    dict_get "interval" params = Some (PStr "1h") /\
    dict_get "limit" params = Some (PInt 1000) /\
    dict_get "endTime" params = None.
Proof.
  assert (Hone : forall w days start_time,
            (length (List.filter is_get
                       (snd (fetch_klines g w "BTCUSDT" "1h" days start_time None))) <= 1)%nat).
  { intros w days start_time. rewrite call_requests.
    destruct (request_params w "BTCUSDT" "1h" days start_time None); cbn; lia. }
  assert (Hget : forall w days start_time u params timeout,
            In (EGet u params timeout)
               (snd (fetch_klines g w "BTCUSDT" "1h" days start_time None)) ->
            u = base_url /\ timeout = 10 /\
            dict_get "symbol" params = Some (PStr "BTCUSDT") /\
            dict_get "interval" params = Some (PStr "1h") /\
            dict_get "limit" params = Some (PInt 1000) /\
            dict_get "endTime" params = None).
  { intros w days start_time u params timeout Hin.
    apply call_get_event in Hin. destruct Hin as (-> & -> & Hp).
    destruct (request_params_fixed _ _ _ _ _ _ _ Hp) as (Hs & Hi & Hl).
    pose proof (request_params_no_end _ _ _ _ _ _ Hp) as He.
    repeat split; assumption. }
  destruct main_trace as (df & _ & [Ht | (start & df_new & _ & Ht)]); rewrite Ht; clear Ht.
  - split.
    + cbn [List.filter is_get]. rewrite List.filter_app, length_app. cbn.
      pose proof (Hone w1 2 None). lia.
    + intros u params timeout [Hin|Hin]; [discriminate|].
      apply in_app_iff in Hin. destruct Hin as [Hin|[Hin|[]]]; [|discriminate].
      exact (Hget _ _ _ _ _ _ Hin).
  - split.
    + cbn [List.filter is_get app]. rewrite !List.filter_app, !length_app. cbn.
      pose proof (Hone w1 2 None).
      pose proof (Hone w2 30 (Some (Timestamp_as_datetime start))). lia.
    + intros u params timeout Hin. cbn in Hin. destruct Hin as [Hin|Hin]; [discriminate|].
      rewrite !in_app_iff in Hin.
      destruct Hin as [[Hin|[Hin|[]]]|[Hin|[Hin|[]]]]; try discriminate;
        exact (Hget _ _ _ _ _ _ Hin).
Qed.



End SelfTestFacts.

(** * The further facts on sample calls *)

#[local] Existing Instance ExactTest.lib.

Lemma get_secret_lookup_loaded_witness :
  get_secret Exact.host "BINANCE_API_KEY" = inr (Some (TStr "from-secrets")) /\
  get_secret Exact.host "BINANCE_API_SECRET" = inr (Some (TStr "from-env")) /\
  get_secret Exact.host "OTHER" = inr None /\
  exists e, get_secret Exact.host_with_text_general "BINANCE_API_KEY" = inl e.
Proof.
  destruct (get_secret_lookup_loaded Exact.host "BINANCE_API_KEY") as (_ & _ & Hkey & _).
  destruct (get_secret_lookup_loaded Exact.host "BINANCE_API_SECRET")
    as (_ & _ & Hsecret & _).
  destruct (get_secret_lookup_loaded Exact.host "OTHER") as (_ & _ & Hother & _).
  destruct (get_secret_lookup_loaded Exact.host_with_text_general "BINANCE_API_KEY")
    as (_ & _ & _ & _ & Htext).
  split; [exact (Hkey _ {[ "BINANCE_API_KEY" := TStr "from-secrets" ]} eq_refl eq_refl)|].
  split; [exact (Hsecret _ {[ "BINANCE_API_KEY" := TStr "from-secrets" ]} eq_refl eq_refl)|].
  split; [exact (Hother _ {[ "BINANCE_API_KEY" := TStr "from-secrets" ]} eq_refl eq_refl)|].
  exact (Htext _ "BINANCE_API_KEY" eq_refl eq_refl).
Defined.

Lemma load_keys_outcome_witness :
  load_keys Exact.host
    = inr {| BINANCE_API_KEY := Some (TStr "from-secrets");
             BINANCE_API_SECRET := Some (TStr "from-env") |} /\
  load_keys Exact.host_without_secrets_file
    = inl (Exn "FileNotFoundError" "No secrets files found.").
Proof.
  destruct (load_keys_outcome Exact.host) as (_ & _ & Hloaded).
  destruct (load_keys_outcome Exact.host_without_secrets_file) as (_ & Hfails & _).
  split.
  - exact (Hloaded _ {[ "BINANCE_API_KEY" := TStr "from-secrets" ]} eq_refl eq_refl).
  - exact (Hfails _ eq_refl).
Defined.

Lemma request_parameter_names_witness :
  In (EGet base_url
        [ ("symbol", PStr "BTCUSDT"); ("interval", PStr "1h"); ("limit", PInt 1000);
          ("startTime", PInt 1699992000000); ("endTime", PInt 1700000000000) ] 10)
     (snd (fetch_klines Exact.globals (Exact.serving Exact.two_rows) "BTCUSDT" "1h" 30
             (Some 1699992000000000000) (Some Exact.now))) /\
  dict_keys [ ("symbol", PStr "BTCUSDT"); ("interval", PStr "1h"); ("limit", PInt 1000);
              ("startTime", PInt 1699992000000); ("endTime", PInt 1700000000000) ]
  = ["symbol"; "interval"; "limit"; "startTime"; "endTime"].
Proof.
  assert (H : In (EGet base_url
                    [ ("symbol", PStr "BTCUSDT"); ("interval", PStr "1h");
                      ("limit", PInt 1000); ("startTime", PInt 1699992000000);
                      ("endTime", PInt 1700000000000) ] 10)
                 (snd (fetch_klines Exact.globals (Exact.serving Exact.two_rows)
                         "BTCUSDT" "1h" 30 (Some 1699992000000000000) (Some Exact.now))))
    by (left; reflexivity).
  split; [exact H|].
  exact (request_parameter_names Exact.globals (Exact.serving Exact.two_rows)
           "BTCUSDT" "1h" 30 (Some 1699992000000000000) (Some Exact.now) _ _ _ H).
Defined.

Lemma days_and_clock_unused_with_times_witness :
  requests_get (Exact.serving Exact.two_rows) = requests_get ExactTest.an_hour_later /\
  fetch_klines Exact.globals (Exact.serving Exact.two_rows) "BTCUSDT" "1h" 30
    None (Some Exact.now)
  = fetch_klines Exact.globals ExactTest.an_hour_later "BTCUSDT" "1h" 7
      None (Some Exact.now).
Proof.
  split; [reflexivity|].
  apply (days_and_clock_unused_with_times Exact.globals (Exact.serving Exact.two_rows)
           "BTCUSDT" "1h" 30 ExactTest.an_hour_later 7 None (Some Exact.now)).
  - reflexivity.
  - right. exists Exact.now. reflexivity.
Defined.





Lemma main_requests_witness :
  In (EGet base_url ExactTest.incremental_params 10)
     (snd (main Exact.globals (ExactTest.serving_then Exact.two_rows (JArr []))
             (ExactTest.serving_then Exact.two_rows (JArr [])))) /\
  dict_get "endTime" ExactTest.incremental_params = None.
Proof.
  assert (H : In (EGet base_url ExactTest.incremental_params 10)
                 (snd (main Exact.globals (ExactTest.serving_then Exact.two_rows (JArr []))
                         (ExactTest.serving_then Exact.two_rows (JArr [])))))
    by (vm_compute; tauto).
  split; [exact H|].
  apply (proj2 (main_requests (T := ExactTest.lib) Exact.globals (ExactTest.serving_then Exact.two_rows (JArr []))
                  (ExactTest.serving_then Exact.two_rows (JArr [])))
           base_url ExactTest.incremental_params 10 H).
Defined.


